(** * DeepGuardX backend: session pipeline (scan gate, summarizer, conversation)

    Shallow embedding of the TypeScript services of [src/backend/src]:

    - [CyberService.scan]           (modules/CyberSecurity/cyber.service.ts, lines 8-53)
    - [AiService.summarize]         (same file, lines 94-167; module [Ai/ai.service])
    - [AiService.askQuestion]       (same file, lines 172-240)
    - [generateSessionId]           (same file, lines 272-278; [middleware/SessionId])
    - [MulterLocal]                 (same file, lines 287-323; [middleware/Multer])
    - [UploadService.upload], [UploadService.askQuestion]
                                    (modules/uploadFile/upload.service.ts)
    - the routes of [uploadRouter]  (modules/uploadFile/upload.controller.ts)

    The services are sequential scripts over the file system that call
    collaborators: the scanner process, the AI backend and the UUID
    generator.  They are embedded in a state-and-exception monad over a
    [World]; the collaborators are section variables that answer as a
    function of the interactions recorded so far. *)

From Stdlib Require Import ZArith String Ascii List Bool Lia.
From stdpp Require Import base option list strings gmap.

Set Warnings "-register-all".

Local Open Scope string_scope.
Local Open Scope Z_scope.

(* ===================================================================== *)
(** ** Node's [path] module (POSIX flavour), as far as the services use it *)
(* ===================================================================== *)

Module Path.

Definition slash : ascii := "/"%char.

(** [s.split("/")]: the segments between separators, empty ones included. *)
Fixpoint split_slash (s : string) : list string :=
  match s with
  | EmptyString => [EmptyString]
  | String c rest =>
      if Ascii.eqb c slash then EmptyString :: split_slash rest
      else match split_slash rest with
           | seg :: segs => String c seg :: segs
           | [] => [String c EmptyString]
           end
  end.

(** One step of Node's [normalizeString]; the stack holds the segments
    kept so far, innermost first. *)
Definition norm_step (allow_above : bool) (stack : list string) (seg : string)
  : list string :=
  if String.eqb seg "" || String.eqb seg "." then stack
  else if String.eqb seg ".." then
    match stack with
    | top :: below => if String.eqb top ".." then seg :: stack else below
    | [] => if allow_above then [seg] else []
    end
  else seg :: stack.

Definition normalize_segments (allow_above : bool) (segs : list string)
  : list string :=
  rev (fold_left (norm_step allow_above) segs []).

Definition is_absolute (p : string) : bool :=
  match p with
  | String c _ => Ascii.eqb c slash
  | EmptyString => false
  end.

Fixpoint ends_with_slash (p : string) : bool :=
  match p with
  | EmptyString => false
  | String c EmptyString => Ascii.eqb c slash
  | String _ rest => ends_with_slash rest
  end.

(** [path.normalize] *)
Definition normalize (p : string) : string :=
  let abs := is_absolute p in
  let body := String.concat "/" (normalize_segments (negb abs) (split_slash p)) in
  if String.eqb body "" then
    (if abs then "/" else if ends_with_slash p then "./" else ".")
  else
    (if abs then "/" else "") ++ body ++ (if ends_with_slash p then "/" else "").

(** [path.join(a, b)]: empty arguments are skipped, the rest is glued with
    the separator and normalised. *)
Definition join (a b : string) : string :=
  let joined :=
    if String.eqb a "" then b
    else if String.eqb b "" then a
    else a ++ "/" ++ b in
  normalize joined.

(** The segments of the absolute path that [p] denotes in a process whose
    working directory is [cwd]. *)
Definition segments (cwd p : string) : list string :=
  normalize_segments false
    (split_slash (if is_absolute p then p else cwd ++ "/" ++ p)).

(** [path.resolve(p)] *)
Definition resolve (cwd p : string) : string :=
  "/" ++ String.concat "/" (segments cwd p).

(** [path.basename(p)]: the last non-empty segment. *)
Definition basename (p : string) : string :=
  default "" (last (filter (fun seg => seg <> "") (split_slash p))).

End Path.

(* ===================================================================== *)
(** ** JSON values, JavaScript errors, file contents *)
(* ===================================================================== *)

(** JSON as [JSON.parse] yields it.  Numbers are integers: the services
    only ever look at [risk_level] and pass everything else through. *)
Inductive json : Type :=
| JNull
| JBool (b : bool)
| JNum (n : Z)
| JStr (s : string)
| JArr (items : list json)
| JObj (fields : list (string * json)).

(** Own-property lookup on an object; documents are taken with distinct
    keys. *)
Fixpoint assoc (k : string) (fields : list (string * json)) : option json :=
  match fields with
  | [] => None
  | (k', v) :: rest => if String.eqb k k' then Some v else assoc k rest
  end.

(** The body of a non-2xx answer of a collaborator: [{detail: string}]. *)
Record ErrResponse : Type := mkErrResponse {
  r_status : Z;
  r_detail : option string
}.

(** What the services read from a caught or rejected error:
    [message], [code], [statusCode] and [response]. *)
Record JsError : Type := mkError {
  e_message : string;
  e_code : option string;
  e_statusCode : option Z;
  e_response : option ErrResponse
}.

(** [new AppError(message, statusCode)] *)
Definition AppError (message : string) (status : Z) : JsError :=
  mkError message None (Some status) None.

(** [new Error(message)] *)
Definition PlainError (message : string) : JsError :=
  mkError message None None None.

(** A Node system error ([ENOENT], [EISDIR], ...) raised by [fs]. *)
Definition SystemError (code : string) : JsError :=
  mkError code (Some code) None None.

(** A [TypeError] or [SyntaxError] raised by the runtime. *)
Definition RuntimeError (message : string) : JsError :=
  mkError message None None None.

(** What a file holds.  [JsonText j] is the text [JSON.stringify(j)], which
    [JSON.parse] reads back as [j]; [Text s] is any other text (a summary,
    an uploaded document), on which [JSON.parse] raises a [SyntaxError]. *)
Inductive content : Type :=
| Text (s : string)
| JsonText (j : json).

Inductive Node : Type :=
| Dir
| File (c : content).

(** Interactions with the outside world, recorded in order. *)
Inductive Event : Type :=
| EvUuid (id : string)
| EvExec (file : string) (args : list string)
| EvPost (endpoint : string) (sessionId : string) (arg : string).

(** The file system maps the segments of an absolute path to a node; the
    root directory [[]] always exists. *)
Record World : Type := mkWorld {
  w_fs : gmap (list string) Node;
  w_cwd : string;
  w_trace : list Event
}.

Definition set_fs (fs : gmap (list string) Node) (w : World) : World :=
  mkWorld fs (w_cwd w) (w_trace w).

Definition log_event (ev : Event) (w : World) : World :=
  mkWorld (w_fs w) (w_cwd w) (w_trace w ++ [ev]).

(* ===================================================================== *)
(** ** The monad: state, exceptions, uncaught exceptions *)
(* ===================================================================== *)

(** [Throw e]: an exception (or a rejected promise) that the caller can
    catch.  [Crash e]: an exception raised inside a Node callback, which no
    [catch] of the caller sees and after which the pending promise is never
    settled. *)
Inductive Outcome (A : Type) : Type :=
| Ret (a : A)
| Throw (e : JsError)
| Crash (e : JsError).
Arguments Ret {A} a.
Arguments Throw {A} e.
Arguments Crash {A} e.

Definition M (A : Type) : Type := World -> Outcome A * World.

Definition ret {A} (a : A) : M A := fun w => (Ret a, w).
Definition throw {A} (e : JsError) : M A := fun w => (Throw e, w).

Definition bind {A B} (m : M A) (k : A -> M B) : M B :=
  fun w =>
    match m w with
    | (Ret a, w') => k a w'
    | (Throw e, w') => (Throw e, w')
    | (Crash e, w') => (Crash e, w')
    end.

#[global] Instance M_ret : MRet M := @ret.
#[global] Instance M_bind : MBind M := fun A B k m => bind m k.

(** [try { body } catch (error) { handler }] *)
Definition try_catch {A} (body : M A) (handler : JsError -> M A) : M A :=
  fun w =>
    match body w with
    | (Throw e, w') => handler e w'
    | other => other
    end.

(** Run [m] as the body of a Node callback: what it throws is uncaught. *)
Definition in_callback {A} (m : M A) : M A :=
  fun w =>
    match m w with
    | (Throw e, w') => (Crash e, w')
    | other => other
    end.

Definition get_world : M World := fun w => (Ret w, w).
Definition emit (ev : Event) : M unit := fun w => (Ret tt, log_event ev w).

(* ===================================================================== *)
(** ** Node's [fs] module (synchronous calls) *)
(* ===================================================================== *)

Module Fs.

Definition lookup_node (fs : gmap (list string) Node) (k : list string)
  : option Node :=
  match k with
  | [] => Some Dir
  | _ => fs !! k
  end.

Definition node_at (w : World) (p : string) : option Node :=
  lookup_node (w_fs w) (Path.segments (w_cwd w) p).

(** The proper ancestors of a path and the path itself, outermost first. *)
Fixpoint prefixes (k : list string) : list (list string) :=
  match k with
  | [] => []
  | seg :: rest => [seg] :: map (cons seg) (prefixes rest)
  end.

(** [mkdir -p]: walk down the prefixes, create what is missing, fail on a
    regular file in the way. *)
Fixpoint mkdirs (ps : list (list string)) (fs : gmap (list string) Node)
  : option (gmap (list string) Node) :=
  match ps with
  | [] => Some fs
  | p :: rest =>
      match fs !! p with
      | None => mkdirs rest (<[p := Dir]> fs)
      | Some Dir => mkdirs rest fs
      | Some (File _) => None
      end
  end.

(** [fs.existsSync(p)] *)
Definition existsSync (p : string) : M bool :=
  fun w => (Ret (match node_at w p with Some _ => true | None => false end), w).

(** [fs.mkdirSync(p, { recursive: true })] *)
Definition mkdirSync (p : string) : M unit :=
  fun w =>
    match mkdirs (prefixes (Path.segments (w_cwd w) p)) (w_fs w) with
    | Some fs' => (Ret tt, set_fs fs' w)
    | None => (Throw (SystemError "ENOTDIR"), w)
    end.

(** [fs.lstatSync(p).isDirectory()] (no symbolic links in the model) *)
Definition isDirectory (p : string) : M bool :=
  fun w =>
    match node_at w p with
    | Some Dir => (Ret true, w)
    | Some (File _) => (Ret false, w)
    | None => (Throw (SystemError "ENOENT"), w)
    end.

(** [fs.readFileSync(p, "utf-8")] *)
Definition readFileSync (p : string) : M content :=
  fun w =>
    match node_at w p with
    | Some (File c) => (Ret c, w)
    | Some Dir => (Throw (SystemError "EISDIR"), w)
    | None => (Throw (SystemError "ENOENT"), w)
    end.

(** Where a regular file may be put: the parent is a directory and the
    place itself is not one. *)
Definition check_target (fs : gmap (list string) Node) (k : list string)
  : option JsError :=
  match lookup_node fs (removelast k) with
  | None => Some (SystemError "ENOENT")
  | Some (File _) => Some (SystemError "ENOTDIR")
  | Some Dir =>
      match lookup_node fs k with
      | Some Dir => Some (SystemError "EISDIR")
      | _ => None
      end
  end.

(** [fs.writeFileSync(p, data)]: creates or replaces the file as a whole. *)
Definition writeFileSync (p : string) (c : content) : M unit :=
  fun w =>
    let k := Path.segments (w_cwd w) p in
    match check_target (w_fs w) k with
    | Some e => (Throw e, w)
    | None => (Ret tt, set_fs (<[k := File c]> (w_fs w)) w)
    end.

(** [fs.renameSync(src, dst)] for a regular file [src]: the entry moves,
    nothing is copied.  Renaming a directory is not part of the model (the
    scan service renames a file it has just read) and is refused. *)
Definition renameSync (src dst : string) : M unit :=
  fun w =>
    let ks := Path.segments (w_cwd w) src in
    let kd := Path.segments (w_cwd w) dst in
    match lookup_node (w_fs w) ks with
    | None => (Throw (SystemError "ENOENT"), w)
    | Some Dir => (Throw (SystemError "EPERM"), w)
    | Some (File c) =>
        match check_target (w_fs w) kd with
        | Some e => (Throw e, w)
        | None => (Ret tt, set_fs (<[kd := File c]> (delete ks (w_fs w))) w)
        end
    end.

End Fs.

(** [JSON.parse(text)] *)
Definition JSON_parse (c : content) : M json :=
  match c with
  | JsonText j => ret j
  | Text _ => throw (RuntimeError "SyntaxError: Unexpected token")
  end.

(** [path.resolve(p)] against [process.cwd()] *)
Definition path_resolve (p : string) : M string :=
  fun w => (Ret (Path.resolve (w_cwd w) p), w).

(** What [axios.post] settles to: the response body of a 2xx answer, or the
    error it rejects with (timeout, refused connection, non-2xx answer). *)
Inductive AxiosResult : Type :=
| AxOk (data : json)
| AxFail (e : JsError).

(** The types of the two collaborators of the services (see [Services]):
    the scanner process maps the interactions so far, the executable, its
    arguments and the file system it starts on to the error handed to the
    callback of [execFile], if any, and the file system it leaves; the AI
    backend maps the interactions so far, the endpoint, the session and the
    argument to what [axios.post] settles to. *)
Abbreviation Scanner :=
  (list Event -> string -> list string -> gmap (list string) Node ->
   option JsError * gmap (list string) Node).

Abbreviation Backend := (list Event -> string -> string -> string -> AxiosResult).

(** JavaScript truthiness of a string, and [a || b] on optional strings. *)
Definition truthy (s : string) : bool := negb (String.eqb s "").

Definition or_else (a : option string) (b : string) : string :=
  match a with
  | Some s => if truthy s then s else b
  | None => b
  end.

(** [value.key] for a key that is no built-in property: reading a property
    of [null] is a [TypeError], a missing property is [undefined] ([None]). *)
Definition prop (value : json) (key : string) : M (option json) :=
  match value with
  | JNull => throw (RuntimeError "TypeError: Cannot read properties of null")
  | JObj fields => ret (assoc key fields)
  | _ => ret None
  end.

(** An object literal; a property whose value is [undefined] is left out,
    as [JSON.stringify] and [res.json] leave it out. *)
Definition obj (fields : list (string * option json)) : json :=
  JObj (omap (fun '(k, v) => pair k <$> v) fields).

(* ===================================================================== *)
(** ** Requests and responses *)
(* ===================================================================== *)

(** The [file] part of a multipart request, as the caller sent it. *)
Record UploadPart : Type := mkPart {
  p_originalname : string;
  p_mimetype : string;
  p_data : content
}.

(** [Express.Multer.File] *)
Record MulterFile : Type := mkFile {
  f_originalname : string;
  f_mimetype : string;
  f_path : string
}.

(** An Express request: what the caller sent ([params], [body], the
    [file] part) and what the middlewares attach ([sessionId], [file]). *)
Record Request : Type := mkRequest {
  req_params : list (string * string);
  req_body : list (string * string);
  req_part : option UploadPart;
  req_sessionId : option string;
  req_file : option MulterFile
}.

Definition field (k : string) (fields : list (string * string)) : option string :=
  snd <$> List.find (fun kv => String.eqb k (fst kv)) fields.

(** How a handler ends: [res.status(s).json(body)] or [next(error)]. *)
Inductive HandlerResult : Type :=
| Sent (status : Z) (body : json)
| Next (error : JsError).

(** How a middleware ends: [next()] with the request it decorated, or
    [next(error)]. *)
Inductive MiddlewareResult : Type :=
| Continue (req : Request)
| Fail (error : JsError).

(* ===================================================================== *)
(** ** The services *)
(* ===================================================================== *)

Section Services.

(** The collaborators.  Each answers as a function of the interactions
    recorded so far, so that two calls with the same arguments may be
    answered differently. *)

(** The scanner process: given the executable, its arguments and the file
    system it starts on, the error passed to the callback of [execFile]
    (a launch failure or a non-zero exit), if any, and the file system it
    leaves behind. *)
Variable scanner_process : Scanner.

(** The AI backend behind [axios.post]: endpoint, session, argument (the
    path of the file sent, or the question). *)
Variable ai_backend : Backend.

(** [uuid4()] *)
Variable uuid4_source : list Event -> string.

(** ECMAScript's abstract equality [value == n] against a number literal;
    [None] is [undefined]. *)
Variable loose_eq : option json -> Z -> bool.

Definition execFile (file : string) (args : list string) : M (option JsError) :=
  fun w =>
    let '(error, fs') := scanner_process (w_trace w) file args (w_fs w) in
    (Ret error, set_fs fs' (log_event (EvExec file args) w)).

Definition axios_post (endpoint sessionId arg : string) : M json :=
  fun w =>
    let w' := log_event (EvPost endpoint sessionId arg) w in
    match ai_backend (w_trace w) endpoint sessionId arg with
    | AxOk data => (Ret data, w')
    | AxFail e => (Throw e, w')
    end.

Definition uuid4 : M string :=
  fun w =>
    let id := uuid4_source (w_trace w) in
    (Ret id, log_event (EvUuid id) w).

(** The statement
    [if (!fs.existsSync(folder)) fs.mkdirSync(folder, { recursive: true })],
    which [scan], [summarize] and [destination] each spell out. *)
Definition ensure_folder (folder : string) : M unit :=
  present ← Fs.existsSync folder;
  if negb present then Fs.mkdirSync folder else ret tt.

(* ------------------------------------------------------------------- *)
(** *** CyberService *)

Definition pythonPath : string :=
  "C:\Users\ahmad\AppData\Local\Programs\Python\Python312\python.exe".

(** The callback that [scan] hands to [execFile]: [throw e] is its
    [reject(e)], [ret v] its [resolve(v)]; what the [fs] calls and
    [JSON.parse] throw inside it is uncaught. *)
Definition scan_callback (sessionFolder pdfFullPath : string)
    (error : option JsError) : M json :=
  match error with
  | Some e => throw e
  | None =>
      let reportFile := pdfFullPath ++ ".report.json" in
      generated ← Fs.existsSync reportFile;
      if (generated : bool) then
        in_callback
          (raw ← Fs.readFileSync reportFile;
           reportData ← JSON_parse raw;
           let destPath := Path.join sessionFolder (Path.basename reportFile) in
           Fs.renameSync reportFile destPath;;
           ret reportData)
      else throw (PlainError "Report JSON not generated")
  end.

(** [CyberService.scan] *)
Definition scan (sessionId filePath : string) : M json :=
  let sessionFolder := Path.join "uploads" sessionId in
  ensure_folder sessionFolder;;
  pythonScript ← path_resolve "pdf-security-scanner/gate.py";
  pdfFullPath ← path_resolve filePath;
  error ← execFile pythonPath [pythonScript; pdfFullPath; sessionId];
  scan_callback sessionFolder pdfFullPath error.

(* ------------------------------------------------------------------- *)
(** *** AiService *)

Definition code_is (error : JsError) (code : string) : bool :=
  match e_code error with
  | Some c => String.eqb c code
  | None => false
  end.

(** The [catch] block of [summarize]. *)
Definition summarize_catch (error : JsError) : JsError :=
  if code_is error "ECONNABORTED" then
    AppError "AI service took too long to respond. Please try a smaller file." 504
  else
    match e_response error with
    | Some response =>
        AppError (or_else (r_detail response) "AI service error") (r_status response)
    | None =>
        if code_is error "ECONNREFUSED" then
          AppError
            "AI service unavailable. Make sure Python server is running on port 8000."
            503
        else AppError ("AI service error: " ++ e_message error) 503
    end.

(** [fs.writeFileSync(path, value, "utf-8")] on a value read from a
    response: anything but a string is refused with a [TypeError] before
    the file is opened. *)
Definition write_text (path : string) (value : option json) : M string :=
  match value with
  | Some (JStr text) => Fs.writeFileSync path (Text text);; ret text
  | _ => throw (mkError "TypeError: The data argument must be of type string"
                  (Some "ERR_INVALID_ARG_TYPE") None None)
  end.

(** The [try] block of [summarize] with its [catch]. *)
Definition summarize_exchange (sessionId filePath sessionFolder : string)
  : M string :=
  try_catch
    (data ← axios_post "/api/summarize" sessionId filePath;
     summary ← prop data "summary";
     let summaryPath := Path.join sessionFolder "summary.txt" in
     write_text summaryPath summary)
    (fun error => throw (summarize_catch error)).

(** [AiService.summarize] *)
Definition summarize (sessionId filePath : string) : M string :=
  if negb (truthy sessionId) || negb (truthy filePath) then
    throw (AppError "Missing Session Id or filePath" 400)
  else
    present ← Fs.existsSync filePath;
    if negb present then throw (AppError ("File not found: " ++ filePath) 404)
    else
      directory ← Fs.isDirectory filePath;
      if (directory : bool) then throw (AppError "Expected a file but got a directory" 400)
      else
        let sessionFolder := Path.join "uploads" sessionId in
        ensure_folder sessionFolder;;
        summarize_exchange sessionId filePath sessionFolder.

(** The [catch] block of [askQuestion]. *)
Definition ask_catch (error : JsError) : JsError :=
  match e_response error with
  | Some response =>
      AppError (or_else (r_detail response) "AI service error") (r_status response)
  | None => AppError "AI service unavailable" 503
  end.

(** [typeof aiData === "string" ? aiData : aiData.answer] *)
Definition extract_answer (aiData : json) : M (option json) :=
  match aiData with
  | JStr _ => ret (Some aiData)
  | _ => prop aiData "answer"
  end.

(** [aiData?.sources ?? []] *)
Definition extract_sources (aiData : json) : json :=
  match aiData with
  | JObj fields =>
      match assoc "sources" fields with
      | Some JNull | None => JArr []
      | Some sources => sources
      end
  | _ => JArr []
  end.

Definition user_turn (question : string) : json :=
  obj [("role", Some (JStr "user")); ("content", Some (JStr question))].

Definition assistant_turn (answer : option json) (sources : json) : json :=
  obj [("role", Some (JStr "assistant")); ("content", answer);
       ("sources", Some sources)].

(** [Array.isArray(raw) ? raw : []] *)
Definition as_array (raw : json) : list json :=
  match raw with
  | JArr items => items
  | _ => []
  end.

(** The log that [askQuestion] starts from: [[]], or what [chat.json]
    holds when it exists. *)
Definition load_messages (chatFile : string) : M (list json) :=
  logged ← Fs.existsSync chatFile;
  if (logged : bool) then
    text ← Fs.readFileSync chatFile;
    raw ← JSON_parse text;
    ret (as_array raw)
  else ret [].

(** The [try] block of [askQuestion] with its [catch]; the value is the
    pair of [answer] and [sources]. *)
Definition ask_exchange (sessionId question : string) : M (option json * json) :=
  try_catch
    (aiData ← axios_post "/api/ask" sessionId question;
     answer ← extract_answer aiData;
     ret (answer, extract_sources aiData))
    (fun error => throw (ask_catch error)).

(** [AiService.askQuestion]; the value is the [messages] array of the
    object it returns. *)
Definition askQuestion (sessionId question : string) : M (list json) :=
  if negb (truthy sessionId) || negb (truthy question) then
    throw (AppError "Missing sessionId or question" 400)
  else
    let sessionFolder := Path.join "uploads" sessionId in
    present ← Fs.existsSync sessionFolder;
    if negb present then throw (AppError "Session Folder Not Found" 404)
    else
      let chatFile := Path.join sessionFolder "chat.json" in
      messages ← load_messages chatFile;
      let messages := (messages ++ [user_turn question])%list in
      reply ← ask_exchange sessionId question;
      let messages := (messages ++ [assistant_turn (fst reply) (snd reply)])%list in
      Fs.writeFileSync chatFile (JsonText (JArr messages));;
      ret messages.

(* ------------------------------------------------------------------- *)
(** *** Middlewares *)

Definition set_sessionId (sessionId : string) (req : Request) : Request :=
  mkRequest (req_params req) (req_body req) (req_part req)
            (Some sessionId) (req_file req).

Definition set_file (file : MulterFile) (req : Request) : Request :=
  mkRequest (req_params req) (req_body req) (req_part req)
            (req_sessionId req) (Some file).

(** [generateSessionId()] *)
Definition generateSessionId (req : Request) : M MiddlewareResult :=
  sessionId ← uuid4;
  ret (Continue (set_sessionId sessionId req)).

(** [allowedExtensions.pdf] *)
Definition allowedExtensions_pdf : list string :=
  ["application/pdf"; "application/x-pdf"; "application/vnd.adobe.pdf"].

Definition includes (l : list string) (s : string) : bool :=
  existsb (String.eqb s) l.

(** [fileFilter] of [MulterLocal] *)
Definition fileFilter (customExtensions : list string) (part : UploadPart)
  : option JsError :=
  if negb (Nat.eqb (length customExtensions) 0)
     && negb (includes customExtensions (p_mimetype part))
  then Some (AppError "Invalid file type, only pdfs allowed" 400)
  else None.

(** [destination] of the disk storage of [MulterLocal] *)
Definition destination (req : Request) : M string :=
  match req_sessionId req with
  | Some sessionId =>
      if truthy sessionId then
        let fullPath := Path.join "uploads" sessionId in
        ensure_folder fullPath;;
        ret fullPath
      else throw (AppError "Session ID not set" 500)
  | None => throw (AppError "Session ID not set" 500)
  end.

(** [filename] of the disk storage of [MulterLocal] *)
Definition filename (part : UploadPart) : string := p_originalname part.

(** [MulterLocal({ customExtensions }).single("file")].  What multer does
    around the three callbacks is its documented behaviour: no part, no
    [req.file]; a filter error goes to [next]; the accepted part is
    written to [path.join(destination, filename)], which becomes
    [req.file.path]; [destination] runs in a stream callback. *)
Definition MulterLocal_single (customExtensions : list string) (req : Request)
  : M MiddlewareResult :=
  match req_part req with
  | None => ret (Continue req)
  | Some part =>
      match fileFilter customExtensions part with
      | Some error => ret (Fail error)
      | None =>
          folder ← in_callback (destination req);
          let finalPath := Path.join folder (filename part) in
          try_catch
            (Fs.writeFileSync finalPath (p_data part);;
             ret (Continue
                    (set_file (mkFile (p_originalname part) (p_mimetype part)
                                      finalPath) req)))
            (fun error => ret (Fail error))
      end
  end.

(* ------------------------------------------------------------------- *)
(** *** UploadService *)

(** [UploadService.upload] *)
Definition upload (req : Request) : M HandlerResult :=
  try_catch
    (match req_sessionId req, req_file req with
     | Some sessionId, Some file =>
         if truthy sessionId && truthy (f_path file) then
           let filePath := f_path file in
           report ← scan sessionId filePath;
           risk_level ← prop report "risk_level";
           if loose_eq risk_level 3 then
             ret (Sent 400 (JObj [("message", JStr "Rejected file");
                                  ("report", report)]))
           else
             summarization ← summarize sessionId filePath;
             ret (Sent 200 (JObj [("status", JStr "success");
                                  ("sessionId", JStr sessionId);
                                  ("report", report);
                                  ("summarization", JStr summarization)]))
         else throw (AppError "Upload failed: missing sessionId or file" 400)
     | _, _ => throw (AppError "Upload failed: missing sessionId or file" 400)
     end)
    (fun error => ret (Next error)).

(** [UploadService.askQuestion] (named apart from [AiService.askQuestion],
    which it calls) *)
Definition askQuestion_handler (req : Request) : M HandlerResult :=
  try_catch
    (match field "sessionId" (req_params req), field "question" (req_body req) with
     | Some sessionId, Some question =>
         if truthy sessionId && truthy question then
           let filePath := Path.join "uploads" sessionId in
           present ← Fs.existsSync filePath;
           if negb present then
             ret (Sent 400 (JObj [("message", JStr "Session Folder Not Found")]))
           else
             messages ← askQuestion sessionId question;
             ret (Sent 200 (JObj [("messages", JArr messages)]))
         else throw (AppError "Missing sessionId or question" 400)
     | _, _ => throw (AppError "Missing sessionId or question" 400)
     end)
    (fun error => ret (Next error)).

(* ------------------------------------------------------------------- *)
(** *** uploadRouter *)

(** [uploadRouter.post("/", generateSessionId(), MulterLocal(...).single("file"), US.upload)] *)
Definition uploadRouter_post (req : Request) : M HandlerResult :=
  r ← generateSessionId req;
  match r with
  | Fail error => ret (Next error)
  | Continue req =>
      r ← MulterLocal_single allowedExtensions_pdf req;
      match r with
      | Fail error => ret (Next error)
      | Continue req => upload req
      end
  end.

(** [uploadRouter.post("/ask/:sessionId", US.askQuestion)] *)
Definition uploadRouter_ask (req : Request) : M HandlerResult :=
  askQuestion_handler req.

(* ------------------------------------------------------------------- *)
(** *** The handlers of the scan and summarize services *)

(** What [path.join] and [path.resolve] throw on an argument that is not a
    string (the message is abridged). *)
Definition invalid_path_argument : JsError :=
  mkError "TypeError [ERR_INVALID_ARG_TYPE]: The path argument must be of type string"
    (Some "ERR_INVALID_ARG_TYPE") None None.

(** [CyberService.scanFile].  A field missing from the body is [undefined]
    in [scan]: without [sessionId], [path.join("uploads", undefined)] throws
    at once; without [filePath], [scan] runs up to
    [path.resolve(undefined)], which throws after the session folder has
    been ensured.  Both happen in the promise executor and reject. *)
Definition scanFile (req : Request) : M HandlerResult :=
  try_catch
    (report ← match field "sessionId" (req_body req),
                    field "filePath" (req_body req) with
              | Some sessionId, Some filePath => scan sessionId filePath
              | Some sessionId, None =>
                  ensure_folder (Path.join "uploads" sessionId);;
                  throw invalid_path_argument
              | None, _ => throw invalid_path_argument
              end;
     ret (Sent 200 report))
    (fun err =>
       ret (Sent 500 (JObj [("success", JBool false);
                            ("error", JStr (e_message err))]))).


End Services.

(* ===================================================================== *)
(** ** The error middleware ([app.controller.ts]) *)
(* ===================================================================== *)

(** The status that the error-handling middleware of [bootstrap] answers
    with: [err.statusCode || 500]. *)
Definition error_status (err : JsError) : Z :=
  match e_statusCode err with
  | Some 0 | None => 500
  | Some status => status
  end.

(** The status a client sees for the way a handler ended. *)
Definition http_status (r : HandlerResult) : Z :=
  match r with
  | Sent status _ => status
  | Next err => error_status err
  end.

(* ===================================================================== *)
(** ** Vocabulary of the properties *)
(* ===================================================================== *)

(** The session's storage root, conversation log and summary artifact. *)
Definition session_root (sessionId : string) : string :=
  Path.join "uploads" sessionId.

Definition chat_file (sessionId : string) : string :=
  Path.join (session_root sessionId) "chat.json".

Definition summary_file (sessionId : string) : string :=
  Path.join (session_root sessionId) "summary.txt".

(** The regular files of two file systems are the same, content included
    (directories may differ). *)
Definition same_files (fs fs' : gmap (list string) Node) : Prop :=
  forall k c, fs' !! k = Some (File c) <-> fs !! k = Some (File c).

(** [w1] is [w] once [if (!fs.existsSync(folder)) fs.mkdirSync(folder,
    { recursive: true })] has run without a fault. *)
Definition ensured (folder : string) (w w1 : World) : Prop :=
  match Fs.node_at w folder with
  | Some _ => w1 = w
  | None =>
      exists fs1,
        Fs.mkdirs (Fs.prefixes (Path.segments (w_cwd w) folder)) (w_fs w) = Some fs1
        /\ w1 = set_fs fs1 w
  end.

(** The turns persisted for a session: the array held by its log, none
    when there is no such array. *)
Definition persisted_log (sessionId : string) (w : World) : list json :=
  match Fs.node_at w (chat_file sessionId) with
  | Some (File (JsonText (JArr turns))) => turns
  | _ => []
  end.


(** What the [try] statement of [askQuestion] yields for an answer of the backend. *)
Definition ask_reply (r : AxiosResult) : Outcome (option json * json) :=
  match r with
  | AxFail e => Throw (ask_catch e)
  | AxOk JNull =>
      Throw (ask_catch (RuntimeError "TypeError: Cannot read properties of null"))
  | AxOk (JStr s) => Ret (Some (JStr s), JArr [])
  | AxOk (JObj fields) => Ret (assoc "answer" fields, extract_sources (JObj fields))
  | AxOk _ => Ret (None, JArr [])
  end.

(** What [load_messages] yields for a node. *)
Definition loaded_log (node : option Node) : Outcome (list json) :=
  match node with
  | None => Ret []
  | Some Dir => Throw (SystemError "EISDIR")
  | Some (File (Text _)) => Throw (RuntimeError "SyntaxError: Unexpected token")
  | Some (File (JsonText raw)) => Ret (as_array raw)
  end.

(** The arguments [scan] passes to the scanner process. *)
Definition scanner_args (sessionId filePath : string) (w : World) : list string :=
  [Path.resolve (w_cwd w) "pdf-security-scanner/gate.py";
   Path.resolve (w_cwd w) filePath; sessionId].

(** [response.data.summary] when it is a string. *)
Definition summary_of (data : json) : option string :=
  match data with
  | JObj fields =>
      match assoc "summary" fields with
      | Some (JStr text) => Some text
      | _ => None
      end
  | _ => None
  end.

(** A computation only ever adds to the record of interactions. *)
Definition steady {A} (m : M A) : Prop :=
  forall w, exists t, w_trace (m w).2 = (w_trace w ++ t)%list.

(** The member [key] of a response body. *)
Definition member (key : string) (body : json) : option json :=
  match body with
  | JObj fields => assoc key fields
  | _ => None
  end.

(** Concrete collaborators and worlds used to evaluate the services. *)
Module Sample.

Definition fs0 : gmap (list string) Node :=
  list_to_map
    [(["srv"], Dir); (["srv"; "app"], Dir);
     (["srv"; "app"; "uploads"], Dir);
     (["srv"; "app"; "outside"], Dir);
     (["srv"; "app"; "uploads"; "s1"], Dir);
     (["srv"; "app"; "uploads"; "s1"; "doc.pdf"], File (Text "%PDF-1.7"))].

Definition w0 : World := mkWorld fs0 "/srv/app" [].

Definition backend_down : Backend :=
  fun _ _ _ _ =>
    AxFail (mkError "connect ECONNREFUSED 127.0.0.1:8000" (Some "ECONNREFUSED")
              None None).


Definition backend_up : Backend :=
  fun _ endpoint _ _ =>
    if String.eqb endpoint "/api/ask" then AxOk (JStr "It is about cats.")
    else AxOk (JObj [("summary", JStr "A text about cats.")]).

Definition report (level : Z) : json :=
  JObj [("risk_level", JNum level); ("findings", JArr [])].

(** A scanner that exits with status zero and leaves its report next to
    the document. *)
Definition scanner (level : Z) : Scanner :=
  fun _ _ args fs =>
    match args with
    | [_; pdf; _] =>
        (None,
         <[Path.segments "/" (pdf ++ ".report.json") :=
             File (JsonText (report level))]> fs)
    | _ => (Some (PlainError "usage"), fs)
    end.


Definition uuids : list Event -> string :=
  fun h => "id-" ++ String.concat "-" (map (fun _ => "x") h).

(** [value == n] on numbers; nothing else is ever compared in the samples. *)
Definition loose_eq_numbers (value : option json) (n : Z) : bool :=
  match value with
  | Some (JNum m) => m =? n
  | _ => false
  end.

End Sample.

(** More collaborators and worlds to evaluate the services on. *)
Module Sample2.

(** The world of [Sample.w0] with a document stored as the log of [s1]. *)
Definition w_text_log : World :=
  mkWorld
    (<[["srv"; "app"; "uploads"; "s1"; "chat.json"] := File (Text "%PDF-1.7")]>
       Sample.fs0)
    "/srv/app" [].

(** A scanner that exits with status zero and leaves a report that is not
    JSON. *)
Definition scanner_garbled : Scanner :=
  fun _ _ args fs =>
    match args with
    | [_; pdf; _] =>
        (None,
         <[Path.segments "/" (pdf ++ ".report.json") := File (Text "Traceback")]> fs)
    | _ => (Some (PlainError "usage"), fs)
    end.

End Sample2.


(* ===================================================================== *)
(** ** Running the statements of the services *)
(* ===================================================================== *)

Section Basics.

Lemma mkdirs_same_files ps : forall fs fs',
  Fs.mkdirs ps fs = Some fs' -> same_files fs fs'.
Proof.
  induction ps as [|p ps IH]; intros fs fs'; simpl.
  - intros [= <-]. by intros k c.
  - destruct (fs !! p) as [[|c0]|] eqn:Hp; [by apply IH | done |].
    intros H%IH k c. rewrite (H k c).
    destruct (decide (p = k)) as [<-|Hne].
    + rewrite lookup_insert_eq, Hp. split; intros; done.
    + by rewrite lookup_insert_ne.
Qed.

Lemma mkdirs_keeps_dirs ps : forall fs fs' k,
  Fs.mkdirs ps fs = Some fs' -> fs !! k = Some Dir -> fs' !! k = Some Dir.
Proof.
  induction ps as [|p ps IH]; intros fs fs' k; simpl.
  - by intros [= <-].
  - destruct (fs !! p) as [[|c0]|] eqn:Hp; [by apply IH | done |].
    intros Hmk Hk. eapply IH; [done |].
    rewrite lookup_insert_ne; [done | congruence].
Qed.

Lemma mkdirs_creates ps : forall fs fs' k,
  Fs.mkdirs ps fs = Some fs' -> In k ps -> fs' !! k = Some Dir.
Proof.
  induction ps as [|p ps IH]; intros fs fs' k; simpl; [done |].
  destruct (fs !! p) as [[|c0]|] eqn:Hp; [| done |].
  - intros Hmk [<- | Hin]; [by eapply mkdirs_keeps_dirs | by eapply IH].
  - intros Hmk [<- | Hin]; [| by eapply IH].
    eapply mkdirs_keeps_dirs; [done |]. by rewrite lookup_insert_eq.
Qed.

Lemma prefixes_self k : k <> [] -> In k (Fs.prefixes k).
Proof.
  induction k as [|seg k IH]; [done |]. intros _. simpl.
  destruct k as [|seg' k]; [by left |].
  right. apply in_map. by apply IH.
Qed.

Lemma mkdirs_prefixes k fs fs' :
  Fs.mkdirs (Fs.prefixes k) fs = Some fs' -> Fs.lookup_node fs' k = Some Dir.
Proof.
  intros Hmk. destruct (decide (k = [])) as [-> | Hne]; [done |].
  destruct k as [|seg rest]; [done |].
  eapply mkdirs_creates; [done |]. by apply prefixes_self.
Qed.

Lemma same_files_refl fs : same_files fs fs.
Proof. by intros k c. Qed.

Lemma ensure_folder_run folder w :
  ensure_folder folder w =
    match Fs.node_at w folder with
    | Some _ => (Ret tt, w)
    | None => Fs.mkdirSync folder w
    end.
Proof.
  unfold ensure_folder, mbind, M_bind, bind, Fs.existsSync.
  by destruct (Fs.node_at w folder).
Qed.

Lemma ensure_folder_ok folder w w1 :
  ensured folder w w1 -> ensure_folder folder w = (Ret tt, w1).
Proof.
  rewrite ensure_folder_run. unfold ensured, Fs.mkdirSync.
  destruct (Fs.node_at w folder); [by intros -> |].
  by intros (fs1 & -> & ->).
Qed.

Lemma ensure_folder_inv folder w out w1 :
  ensure_folder folder w = (out, w1) ->
  (out = Ret tt /\ ensured folder w w1) \/
  (out = Throw (SystemError "ENOTDIR") /\ w1 = w).
Proof.
  rewrite ensure_folder_run. unfold ensured, Fs.mkdirSync.
  destruct (Fs.node_at w folder); [intros [= <- <-]; by left |].
  destruct (Fs.mkdirs _ _) as [fs1|]; intros [= <- <-]; [left | right]; eauto.
Qed.

Lemma ensured_frame folder w w1 :
  ensured folder w w1 ->
  w_cwd w1 = w_cwd w /\ w_trace w1 = w_trace w /\ same_files (w_fs w) (w_fs w1).
Proof.
  unfold ensured. destruct (Fs.node_at w folder).
  - intros ->. auto using same_files_refl.
  - intros (fs1 & H%mkdirs_same_files & ->). auto.
Qed.

Lemma load_messages_run chatFile w :
  load_messages chatFile w = (loaded_log (Fs.node_at w chatFile), w).
Proof.
  unfold load_messages, mbind, M_bind, bind, Fs.existsSync, Fs.readFileSync.
  destruct (Fs.node_at w chatFile) as [[|[s|raw]]|] eqn:E; simpl; rewrite ?E; reflexivity.
Qed.

Lemma ask_exchange_run backend sessionId question w :
  ask_exchange backend sessionId question w =
    (ask_reply (backend (w_trace w) "/api/ask" sessionId question),
     log_event (EvPost "/api/ask" sessionId question) w).
Proof.
  unfold ask_exchange, try_catch, mbind, M_bind, bind, axios_post.
  destruct (backend _ _ _ _) as [[| | | | |]|]; reflexivity.
Qed.

End Basics.

Section AskProperties.

Variable backend : Backend.

Lemma ask_no_root sessionId question w :
  Fs.node_at w (session_root sessionId) = None ->
  askQuestion backend sessionId question w =
    (Throw (if truthy sessionId && truthy question
            then AppError "Session Folder Not Found" 404
            else AppError "Missing sessionId or question" 400), w).
Proof.
  intros Hroot. unfold askQuestion.
  destruct (truthy sessionId), (truthy question); simpl; try reflexivity.
  unfold mbind, M_bind, bind, Fs.existsSync. fold (session_root sessionId).
  rewrite Hroot. reflexivity.
Qed.

Lemma ask_run sessionId question w :
  truthy sessionId = true -> truthy question = true ->
  Fs.node_at w (session_root sessionId) <> None ->
  askQuestion backend sessionId question w =
    match loaded_log (Fs.node_at w (chat_file sessionId)) with
    | Ret prior =>
        let w1 := log_event (EvPost "/api/ask" sessionId question) w in
        match ask_reply (backend (w_trace w) "/api/ask" sessionId question) with
        | Ret reply =>
            let turns :=
              (prior ++ [user_turn question; assistant_turn reply.1 reply.2])%list in
            let key := Path.segments (w_cwd w) (chat_file sessionId) in
            match Fs.check_target (w_fs w) key with
            | None =>
                (Ret turns, set_fs (<[key := File (JsonText (JArr turns))]> (w_fs w)) w1)
            | Some e => (Throw e, w1)
            end
        | Throw e => (Throw e, w1)
        | Crash e => (Crash e, w1)
        end
    | Throw e => (Throw e, w)
    | Crash e => (Crash e, w)
    end.
Proof.
  intros Hs Hq Hroot. unfold askQuestion. rewrite Hs, Hq. simpl.
  unfold mbind, M_bind, bind, Fs.existsSync. fold (session_root sessionId).
  destruct (Fs.node_at w (session_root sessionId)); [simpl | done].
  fold (chat_file sessionId). rewrite load_messages_run.
  destruct (loaded_log _) as [prior| |]; try reflexivity.
  rewrite ask_exchange_run.
  destruct (ask_reply _) as [reply| |]; try reflexivity.
  unfold Fs.writeFileSync. simpl.
  rewrite <- !app_assoc. simpl.
  destruct (Fs.check_target _ _); reflexivity.
Qed.


Lemma loaded_persisted sessionId w prior :
  loaded_log (Fs.node_at w (chat_file sessionId)) = Ret prior ->
  persisted_log sessionId w = prior.
Proof.
  unfold persisted_log.
  destruct (Fs.node_at w (chat_file sessionId)) as [[|[s|raw]]|]; simpl;
    intros [= <-]; reflexivity.
Qed.

Lemma persisted_frame sessionId w w' :
  w_fs w' = w_fs w -> w_cwd w' = w_cwd w ->
  persisted_log sessionId w' = persisted_log sessionId w.
Proof. unfold persisted_log, Fs.node_at. by intros -> ->. Qed.

Lemma persisted_after_write sessionId w w1 turns :
  let key := Path.segments (w_cwd w) (chat_file sessionId) in
  Fs.check_target (w_fs w) key = None ->
  w_cwd w1 = w_cwd w ->
  persisted_log sessionId
    (set_fs (<[key := File (JsonText (JArr turns))]> (w_fs w)) w1) = turns.
Proof.
  intros key Hok Hcwd. unfold persisted_log, Fs.node_at. simpl.
  rewrite Hcwd. fold key.
  destruct key as [|seg key'] eqn:Hkey; [done |].
  simpl. by rewrite lookup_insert_eq.
Qed.


End AskProperties.

Section ScanSummarize.

Variable scanner : Scanner.
Variable backend : Backend.

Lemma execFile_frame file args w error w2 :
  execFile scanner file args w = (Ret error, w2) ->
  w_cwd w2 = w_cwd w /\ w_trace w2 = (w_trace w ++ [EvExec file args])%list.
Proof.
  unfold execFile. destruct (scanner _ _ _ _). by intros [= <- <-].
Qed.

Lemma execFile_total file args w :
  exists error w2, execFile scanner file args w = (Ret error, w2).
Proof. unfold execFile. destruct (scanner _ _ _ _). eauto. Qed.

Lemma scan_run sessionId filePath w w1 error w2 :
  ensured (session_root sessionId) w w1 ->
  execFile scanner pythonPath (scanner_args sessionId filePath w1) w1 = (Ret error, w2) ->
  scan scanner sessionId filePath w
  = scan_callback (session_root sessionId) (Path.resolve (w_cwd w) filePath) error w2.
Proof.
  intros He Hx. unfold scan. fold (session_root sessionId).
  unfold mbind, M_bind, bind. rewrite (ensure_folder_ok _ _ _ He).
  unfold path_resolve. fold (scanner_args sessionId filePath w1). rewrite Hx.
  by destruct (ensured_frame _ _ _ He) as (-> & _).
Qed.

Lemma summarize_exchange_run sessionId filePath folder w :
  summarize_exchange backend sessionId filePath folder w =
    let w1 := log_event (EvPost "/api/summarize" sessionId filePath) w in
    match backend (w_trace w) "/api/summarize" sessionId filePath with
    | AxFail e => (Throw (summarize_catch e), w1)
    | AxOk data =>
        match summary_of data with
        | Some text =>
            let key := Path.segments (w_cwd w) (Path.join folder "summary.txt") in
            match Fs.check_target (w_fs w) key with
            | None => (Ret text, set_fs (<[key := File (Text text)]> (w_fs w)) w1)
            | Some e => (Throw (summarize_catch e), w1)
            end
        | None =>
            (Throw (summarize_catch
                      (match data with
                       | JNull => RuntimeError "TypeError: Cannot read properties of null"
                       | _ => mkError "TypeError: The data argument must be of type string"
                                (Some "ERR_INVALID_ARG_TYPE") None None
                       end)), w1)
        end
    end.
Proof.
  unfold summarize_exchange, try_catch, mbind, M_bind, bind, axios_post.
  destruct (backend _ _ _ _) as [data|e]; [| reflexivity].
  destruct data as [| | | | |fields]; try reflexivity.
  simpl. destruct (assoc "summary" fields) as [[| | |text| |]|]; try reflexivity.
  simpl. unfold Fs.writeFileSync, mbind, M_bind, bind. simpl.
  destruct (Fs.check_target _ _); reflexivity.
Qed.


Lemma summarize_run sessionId filePath w c w1 :
  truthy sessionId = true -> truthy filePath = true ->
  Fs.node_at w filePath = Some (File c) ->
  ensured (session_root sessionId) w w1 ->
  summarize backend sessionId filePath w
  = summarize_exchange backend sessionId filePath (session_root sessionId) w1.
Proof.
  intros Hs Hf Hfile He. unfold summarize. rewrite Hs, Hf. simpl.
  unfold mbind, M_bind, bind, Fs.existsSync, Fs.isDirectory. rewrite Hfile.
  simpl. rewrite Hfile. fold (session_root sessionId).
  by rewrite (ensure_folder_ok _ _ _ He).
Qed.



Lemma scan_callback_frame folder pdf error w2 :
  w_trace (scan_callback folder pdf error w2).2 = w_trace w2
  /\ w_cwd (scan_callback folder pdf error w2).2 = w_cwd w2.
Proof.
  unfold scan_callback, in_callback, mbind, M_bind, bind, Fs.existsSync,
    Fs.readFileSync, Fs.renameSync.
  destruct error; [done |].
  destruct (Fs.node_at w2 _) as [[|[text|j]]|] eqn:Hn; simpl; rewrite ?Hn; simpl;
    try done.
  destruct (Fs.lookup_node _ _) as [[|c]|]; try done.
  destruct (Fs.check_target _ _); done.
Qed.

Lemma scan_trace sessionId filePath w report w' :
  scan scanner sessionId filePath w = (Ret report, w') ->
  w_trace w'
  = (w_trace w ++ [EvExec pythonPath (scanner_args sessionId filePath w)])%list
  /\ w_cwd w' = w_cwd w.
Proof.
  destruct (ensure_folder (session_root sessionId) w) as [out1 w1] eqn:He.
  pose proof He as Hinv. apply ensure_folder_inv in Hinv as [[-> Hens] | [-> ->]].
  - destruct (execFile_total pythonPath (scanner_args sessionId filePath w1) w1)
      as (error & w2 & Hx).
    rewrite (scan_run _ _ _ _ _ _ Hens Hx). intros Hcb.
    pose proof (scan_callback_frame (session_root sessionId)
                  (Path.resolve (w_cwd w) filePath) error w2) as [Ht Hc].
    rewrite Hcb in Ht, Hc. simpl in Ht, Hc.
    destruct (execFile_frame _ _ _ _ _ Hx) as [Hc2 Ht2].
    destruct (ensured_frame _ _ _ Hens) as (Hc1 & Ht1 & _).
    rewrite Ht, Ht2, Ht1, Hc, Hc2, Hc1. unfold scanner_args. by rewrite Hc1.
  - unfold scan. fold (session_root sessionId).
    unfold mbind, M_bind, bind. rewrite He. done.
Qed.

End ScanSummarize.

Section Steady.

Lemma steady_ret {A} (a : A) : steady (ret a).
Proof. intros w. exists []. simpl. by rewrite app_nil_r. Qed.

Lemma steady_throw {A} e : steady (@throw A e).
Proof. intros w. exists []. simpl. by rewrite app_nil_r. Qed.

Lemma steady_bind {A B} (m : M A) (k : A -> M B) :
  steady m -> (forall a, steady (k a)) -> steady (m ≫= k).
Proof.
  intros Hm Hk w. unfold mbind, M_bind, bind.
  destruct (Hm w) as [t Ht]. destruct (m w) as [[a|e|e] w1]; simpl in *; eauto.
  destruct (Hk a w1) as [t2 Ht2]. exists (t ++ t2)%list.
  by rewrite Ht2, Ht, app_assoc.
Qed.

Lemma steady_try_catch {A} (m : M A) (h : JsError -> M A) :
  steady m -> (forall e, steady (h e)) -> steady (try_catch m h).
Proof.
  intros Hm Hh w. unfold try_catch.
  destruct (Hm w) as [t Ht]. destruct (m w) as [[a|e|e] w1]; simpl in *; eauto.
  destruct (Hh e w1) as [t2 Ht2]. exists (t ++ t2)%list.
  by rewrite Ht2, Ht, app_assoc.
Qed.

Lemma steady_in_callback {A} (m : M A) : steady m -> steady (in_callback m).
Proof.
  intros Hm w. unfold in_callback.
  destruct (Hm w) as [t Ht]. destruct (m w) as [[a|e|e] w1]; simpl in *; eauto.
Qed.

Lemma steady_fs {A} (m : M A) :
  (forall w, w_trace (m w).2 = w_trace w) -> steady m.
Proof. intros H w. exists []. by rewrite H, app_nil_r. Qed.

Lemma steady_existsSync p : steady (Fs.existsSync p).
Proof. by apply steady_fs. Qed.

Lemma steady_mkdirSync p : steady (Fs.mkdirSync p).
Proof. apply steady_fs. intros w. unfold Fs.mkdirSync. by case_match. Qed.

Lemma steady_isDirectory p : steady (Fs.isDirectory p).
Proof. apply steady_fs. intros w. unfold Fs.isDirectory. by repeat case_match. Qed.

Lemma steady_readFileSync p : steady (Fs.readFileSync p).
Proof. apply steady_fs. intros w. unfold Fs.readFileSync. by repeat case_match. Qed.

Lemma steady_writeFileSync p c : steady (Fs.writeFileSync p c).
Proof. apply steady_fs. intros w. unfold Fs.writeFileSync. by repeat case_match. Qed.

Lemma steady_renameSync p q : steady (Fs.renameSync p q).
Proof. apply steady_fs. intros w. unfold Fs.renameSync. by repeat case_match. Qed.

Lemma steady_path_resolve p : steady (path_resolve p).
Proof. by apply steady_fs. Qed.

Lemma steady_JSON_parse c : steady (JSON_parse c).
Proof. destruct c; [apply steady_throw | apply steady_ret]. Qed.

Lemma steady_prop v k : steady (prop v k).
Proof. destruct v; first [apply steady_throw | apply steady_ret]. Qed.

Lemma steady_execFile scanner file args : steady (execFile scanner file args).
Proof. intros w. unfold execFile. destruct (scanner _ _ _ _). simpl. eauto. Qed.

Lemma steady_axios_post backend endpoint sessionId arg :
  steady (axios_post backend endpoint sessionId arg).
Proof. intros w. unfold axios_post. case_match; simpl; eauto. Qed.

Lemma steady_uuid4 source : steady (uuid4 source).
Proof. intros w. simpl. eauto. Qed.

End Steady.

(** Walks down a computation built from the monad's combinators and the
    primitive calls. *)
Ltac steady :=
  repeat first
    [ progress intros
    | apply steady_ret | apply steady_throw
    | apply steady_in_callback | apply steady_bind | apply steady_try_catch
    | apply steady_existsSync | apply steady_mkdirSync | apply steady_isDirectory
    | apply steady_readFileSync | apply steady_writeFileSync
    | apply steady_renameSync | apply steady_path_resolve
    | apply steady_JSON_parse | apply steady_prop
    | apply steady_execFile | apply steady_axios_post | apply steady_uuid4
    | case_match ].

(** The services only ever add to the record of interactions. *)
Section SteadyServices.

Variable scanner : Scanner.
Variable backend : Backend.
Variable source : list Event -> string.
Variable loose_eq : option json -> Z -> bool.


Lemma steady_scan sessionId filePath : steady (scan scanner sessionId filePath).
Proof. unfold scan, scan_callback, ensure_folder. steady. Qed.




End SteadyServices.

(** The upload route, step by step. *)
Section RouteProperties.

Variable scanner : Scanner.
Variable backend : Backend.
Variable source : list Event -> string.
Variable loose_eq : option json -> Z -> bool.


Lemma route_run req w :
  uploadRouter_post scanner backend source loose_eq req w
  = let sessionId := source (w_trace w) in
    let req1 := set_sessionId sessionId req in
    match MulterLocal_single allowedExtensions_pdf req1 (log_event (EvUuid sessionId) w) with
    | (Ret (Continue req2), w2) => upload scanner backend loose_eq req2 w2
    | (Ret (Fail error), w2) => (Ret (Next error), w2)
    | (Throw e, w2) => (Throw e, w2)
    | (Crash e, w2) => (Crash e, w2)
    end.
Proof.
  unfold uploadRouter_post, generateSessionId, uuid4, mbind, M_bind, bind. simpl.
  by destruct (MulterLocal_single _ _ _) as [[[req2|error]|e|e] w2].
Qed.


End RouteProperties.

(* ===================================================================== *)
(** ** The path functions on the paths the services build *)
(* ===================================================================== *)

Example join_session : Path.join "uploads" "3f2a" = "uploads/3f2a".
Proof. reflexivity. Qed.

Example join_chat : Path.join (Path.join "uploads" "3f2a") "chat.json"
                    = "uploads/3f2a/chat.json".
Proof. reflexivity. Qed.

Example join_parent : Path.join "uploads" "../outside" = "outside".
Proof. reflexivity. Qed.

Example join_empty : Path.join "uploads" "" = "uploads".
Proof. reflexivity. Qed.

Example resolve_upload :
  Path.resolve "/srv/app" "uploads/3f2a/doc.pdf" = "/srv/app/uploads/3f2a/doc.pdf".
Proof. reflexivity. Qed.

Example basename_report :
  Path.basename "/srv/app/uploads/3f2a/doc.pdf.report.json" = "doc.pdf.report.json".
Proof. reflexivity. Qed.

(* ===================================================================== *)
(** ** Conversation: [askQuestion] *)
(* ===================================================================== *)

(** C9.  An ask on a session identifier whose storage root
    ([uploads/<id>]) does not exist is an error and never a conversation,
    and it leaves the world as it found it: nothing is written.  The error
    is "Session Folder Not Found": status 404 from [AiService.askQuestion],
    and a 400 response with that message from the route handler, which makes
    the same check first.  (Only a request without an identifier or without
    a question is refused earlier, as missing input.) *)
Theorem ask_unknown_session
    (backend : Backend)
    (sessionId question : string) (w : World)
    (Hroot : Fs.node_at w (session_root sessionId) = None) :
  (exists e, askQuestion backend sessionId question w = (Throw e, w))
  /\ (truthy sessionId = true -> truthy question = true ->
      askQuestion backend sessionId question w
      = (Throw (AppError "Session Folder Not Found" 404), w))
  /\ (truthy sessionId = true -> truthy question = true ->
      forall req,
        field "sessionId" (req_params req) = Some sessionId ->
        field "question" (req_body req) = Some question ->
        uploadRouter_ask backend req w
        = (Ret (Sent 400 (JObj [("message", JStr "Session Folder Not Found")])), w)).
Proof.
  split; [| split].
  - rewrite ask_no_root by done. eauto.
  - intros Hs Hq. rewrite ask_no_root by done. by rewrite Hs, Hq.
  - intros Hs Hq req Hp Hb.
    unfold uploadRouter_ask, askQuestion_handler, try_catch.
    rewrite Hp, Hb, Hs, Hq. simpl.
    unfold mbind, M_bind, bind, Fs.existsSync.
    fold (session_root sessionId). by rewrite Hroot.
Qed.

Lemma ask_unknown_session_witness :
  askQuestion Sample.backend_up "s2" "what is this about?" Sample.w0
  = (Throw (AppError "Session Folder Not Found" 404), Sample.w0).
Proof.
  apply (ask_unknown_session Sample.backend_up "s2" "what is this about?" Sample.w0);
    reflexivity.
Defined.

(** C3, as the service behaves.  The user turn is appended to the log in
    memory before the backend is called, but nothing is persisted until the
    backend has answered: when the call fails, the ask ends with an error
    and the file system, hence the persisted log, is exactly what it was;
    the unanswered user turn is not persisted.  When the ask returns, the
    log it persisted is the one it returns and ends with the user turn
    followed by the assistant turn. *)
Theorem ask_failure_persists_nothing
    (backend : Backend)
    (sessionId question : string) (w : World) :
  (forall e,
     backend (w_trace w) "/api/ask" sessionId question = AxFail e ->
     w_fs (askQuestion backend sessionId question w).2 = w_fs w
     /\ persisted_log sessionId (askQuestion backend sessionId question w).2
        = persisted_log sessionId w
     /\ (forall turns, (askQuestion backend sessionId question w).1 <> Ret turns))
  /\ (forall turns w',
        askQuestion backend sessionId question w = (Ret turns, w') ->
        persisted_log sessionId w' = turns
        /\ exists data answer sources,
             backend (w_trace w) "/api/ask" sessionId question = AxOk data
             /\ turns = (persisted_log sessionId w
                         ++ [user_turn question; assistant_turn answer sources])%list).
Proof.
  destruct (truthy sessionId && truthy question) eqn:Hin;
    [apply andb_true_iff in Hin as [Hs Hq] |].
  2: { unfold askQuestion.
       assert (negb (truthy sessionId) || negb (truthy question) = true) as ->
         by (apply andb_false_iff in Hin as [-> | ->]; simpl; auto using orb_true_r).
       split; [intros e _; simpl; auto | intros turns w' [=]]. }
  destruct (Fs.node_at w (session_root sessionId)) eqn:Hroot.
  2: { rewrite ask_no_root by done.
       split; [intros e _; simpl; auto | intros turns w' [=]]. }
  rewrite ask_run by (done || congruence).
  destruct (loaded_log _) as [prior| |] eqn:Hload; simpl.
  2, 3: split; [intros e' _; simpl; auto | intros turns w' [=]].
  apply loaded_persisted in Hload as <-.
  destruct (backend _ _ _ _) as [data|e0] eqn:Hb.
  - split; [intros e [=] |].
    destruct (ask_reply _) as [reply| |]; [| by intros ? ? [=] ..].
    destruct (Fs.check_target _ _) eqn:Hok; [by intros ? ? [=] |].
    intros turns w' [= <- <-]. rewrite persisted_after_write by done.
    split; [done |]. by exists data, reply.1, reply.2.
  - simpl. split; [intros e _; simpl; auto | intros turns w' [=]].
Qed.

(** C3, counterexample to the claim as stated: the backend refuses the
    connection; the ask fails with status 503 and the session still has no
    persisted log, so the user turn is not in it. *)
Lemma ask_failure_leaves_no_user_turn :
  let q := "what is this about?" in
  askQuestion Sample.backend_down "s1" q Sample.w0
  = (Throw (AppError "AI service unavailable" 503),
     log_event (EvPost "/api/ask" "s1" q) Sample.w0)
  /\ persisted_log "s1" (askQuestion Sample.backend_down "s1" q Sample.w0).2 = []
  /\ ~ In (user_turn q)
       (persisted_log "s1" (askQuestion Sample.backend_down "s1" q Sample.w0).2).
Proof. vm_compute. split; [reflexivity | split; [reflexivity | tauto]]. Qed.




(* ===================================================================== *)
(** ** Summarizer: [summarize] *)
(* ===================================================================== *)



(** C5.  [summarize] fails when the file does not exist (status 404) and
    when it is a directory (status 400).  Otherwise it makes sure that the
    session folder exists and, when the backend answers with a summary text
    and the summary file can be written, it writes exactly that text to
    [summary.txt] under the session folder (the only file it touches) and
    returns that same text. *)
Theorem summarize_spec
    (backend : Backend)
    (sessionId filePath : string) (w : World)
    (Hs : truthy sessionId = true) (Hf : truthy filePath = true) :
  (Fs.node_at w filePath = None ->
   summarize backend sessionId filePath w
   = (Throw (AppError ("File not found: " ++ filePath) 404), w))
  /\ (Fs.node_at w filePath = Some Dir ->
      summarize backend sessionId filePath w
      = (Throw (AppError "Expected a file but got a directory" 400), w))
  /\ (forall c w1 data text,
        Fs.node_at w filePath = Some (File c) ->
        ensured (session_root sessionId) w w1 ->
        backend (w_trace w) "/api/summarize" sessionId filePath = AxOk data ->
        summary_of data = Some text ->
        let key := Path.segments (w_cwd w) (summary_file sessionId) in
        Fs.check_target (w_fs w1) key = None ->
        let w' := (summarize backend sessionId filePath w).2 in
        (summarize backend sessionId filePath w).1 = Ret text
        /\ w_fs w' = <[key := File (Text text)]> (w_fs w1)
        /\ Fs.node_at w' (summary_file sessionId) = Some (File (Text text))
        /\ Fs.node_at w1 (session_root sessionId) <> None).
Proof.
  split; [| split].
  - intros Hnone. unfold summarize. rewrite Hs, Hf. simpl.
    unfold mbind, M_bind, bind, Fs.existsSync. by rewrite Hnone.
  - intros Hdir. unfold summarize. rewrite Hs, Hf. simpl.
    unfold mbind, M_bind, bind, Fs.existsSync, Fs.isDirectory. rewrite Hdir.
    simpl. by rewrite Hdir.
  - intros c w1 data text Hfile He Hb Hsum key Hok.
    rewrite (summarize_run backend _ _ _ _ _ Hs Hf Hfile He).
    rewrite summarize_exchange_run.
    destruct (ensured_frame _ _ _ He) as (Hcwd & Htrace & _).
    rewrite Htrace, Hb, Hsum, Hcwd. cbv zeta. fold (summary_file sessionId).
    fold key. rewrite Hok. simpl. split; [done |]. split; [done |]. split.
    + unfold Fs.node_at. simpl. rewrite Hcwd. fold key.
      destruct key; [done |]. simpl. by rewrite lookup_insert_eq.
    + revert He. unfold ensured.
      destruct (Fs.node_at w (session_root sessionId)) eqn:Hroot.
      * intros ->. by rewrite Hroot.
      * intros (fs1 & Hmk & ->). unfold Fs.node_at. simpl.
        by rewrite (mkdirs_prefixes _ _ _ Hmk).
Qed.

Lemma summarize_spec_witness :
  (summarize Sample.backend_up "s1" "uploads/s1/doc.pdf" Sample.w0).1
  = Ret "A text about cats."
  /\ Fs.node_at (summarize Sample.backend_up "s1" "uploads/s1/doc.pdf" Sample.w0).2
       "uploads/s1/summary.txt"
     = Some (File (Text "A text about cats.")).
Proof.
  pose proof (proj2 (proj2 (summarize_spec Sample.backend_up "s1" "uploads/s1/doc.pdf"
                              Sample.w0 eq_refl eq_refl))
                (Text "%PDF-1.7") Sample.w0
                (JObj [("summary", JStr "A text about cats.")]) "A text about cats."
                eq_refl eq_refl eq_refl eq_refl eq_refl) as (H1 & _ & H3 & _).
  exact (conj H1 H3).
Defined.

(* ===================================================================== *)
(** ** Scan gate: [scan] *)
(* ===================================================================== *)



(* ===================================================================== *)
(** ** Intake: [upload] and the upload route *)
(* ===================================================================== *)

(** C1.  On an intake request whose scan returned a report with a numeric
    [risk_level], the policy is binary.  At level 3 the handler answers 400
    with exactly the message "Rejected file" and the report, in the world
    the scan left behind: the only interaction since the request began is the
    launch of the scanner, so the summarizer was not called and nothing was
    written after the scan.  At any other level, 0, 1 and 2 included, the
    handler goes on to [summarize]; when that returns a text the answer is
    200 with [status], [sessionId], [report] and the summary text (under
    the key [summarization]), and when it fails the error goes to [next]. *)
Theorem upload_risk_policy
    (scanner : Scanner)
    (backend : Backend)
    (loose_eq : option json -> Z -> bool)
    (Hnumbers : forall m n, loose_eq (Some (JNum m)) n = (m =? n))
    (req : Request) (sessionId : string) (file : MulterFile) (w w1 : World)
    (fields : list (string * json)) (level : Z)
    (Hid : req_sessionId req = Some sessionId)
    (Hfile : req_file req = Some file)
    (Hs : truthy sessionId = true) (Hp : truthy (f_path file) = true)
    (Hscan : scan scanner sessionId (f_path file) w = (Ret (JObj fields), w1))
    (Hlevel : assoc "risk_level" fields = Some (JNum level)) :
  let report := JObj fields in
  (level = 3 ->
   upload scanner backend loose_eq req w
   = (Ret (Sent 400 (JObj [("message", JStr "Rejected file"); ("report", report)])),
      w1)
   /\ w_trace w1
      = (w_trace w
         ++ [EvExec pythonPath (scanner_args sessionId (f_path file) w)])%list)
  /\ (level <> 3 ->
      upload scanner backend loose_eq req w
      = match summarize backend sessionId (f_path file) w1 with
        | (Ret summarization, w2) =>
            (Ret (Sent 200 (JObj [("status", JStr "success");
                                  ("sessionId", JStr sessionId);
                                  ("report", report);
                                  ("summarization", JStr summarization)])), w2)
        | (Throw e, w2) => (Ret (Next e), w2)
        | (Crash e, w2) => (Crash e, w2)
        end).
Proof.
  intros report.
  assert (forall verdict,
            loose_eq (Some (JNum level)) 3 = verdict ->
            upload scanner backend loose_eq req w
            = if verdict
              then (Ret (Sent 400 (JObj [("message", JStr "Rejected file");
                                         ("report", report)])), w1)
              else match summarize backend sessionId (f_path file) w1 with
                   | (Ret summarization, w2) =>
                       (Ret (Sent 200 (JObj [("status", JStr "success");
                                             ("sessionId", JStr sessionId);
                                             ("report", report);
                                             ("summarization", JStr summarization)])),
                        w2)
                   | (Throw e, w2) => (Ret (Next e), w2)
                   | (Crash e, w2) => (Crash e, w2)
                   end) as Hrun.
  { intros verdict Hv. unfold upload, try_catch. rewrite Hid, Hfile, Hs, Hp. simpl.
    unfold mbind, M_bind, bind. rewrite Hscan. simpl. rewrite Hlevel, Hv.
    destruct verdict; [done |].
    by destruct (summarize backend sessionId (f_path file) w1) as [[s|e|e] w2]. }
  split.
  - intros ->. split; [by rewrite (Hrun true) |].
    by destruct (scan_trace _ _ _ _ _ _ Hscan).
  - intros Hne. apply (Hrun false). rewrite Hnumbers. by apply Z.eqb_neq.
Qed.

Lemma upload_risk_policy_witness :
  let req := mkRequest [] [] None (Some "s1")
               (Some (mkFile "doc.pdf" "application/pdf" "uploads/s1/doc.pdf")) in
  upload (Sample.scanner 3) Sample.backend_up Sample.loose_eq_numbers req Sample.w0
  = (Ret (Sent 400 (JObj [("message", JStr "Rejected file");
                          ("report", Sample.report 3)])),
     (scan (Sample.scanner 3) "s1" "uploads/s1/doc.pdf" Sample.w0).2)
  /\ (upload (Sample.scanner 1) Sample.backend_up Sample.loose_eq_numbers req
        Sample.w0).1
     = Ret (Sent 200 (JObj [("status", JStr "success"); ("sessionId", JStr "s1");
                            ("report", Sample.report 1);
                            ("summarization", JStr "A text about cats.")])).
Proof.
  intros req. split.
  - apply (proj1 (upload_risk_policy (Sample.scanner 3) Sample.backend_up
                    Sample.loose_eq_numbers (fun m n => eq_refl) req "s1"
                    (mkFile "doc.pdf" "application/pdf" "uploads/s1/doc.pdf")
                    Sample.w0 _
                    [("risk_level", JNum 3); ("findings", JArr [])] 3
                    eq_refl eq_refl eq_refl eq_refl eq_refl eq_refl));
      reflexivity.
  - rewrite (proj2 (upload_risk_policy (Sample.scanner 1) Sample.backend_up
                      Sample.loose_eq_numbers (fun m n => eq_refl) req "s1"
                      (mkFile "doc.pdf" "application/pdf" "uploads/s1/doc.pdf")
                      Sample.w0 _
                      [("risk_level", JNum 1); ("findings", JArr [])] 1
                      eq_refl eq_refl eq_refl eq_refl eq_refl eq_refl));
      [reflexivity | discriminate].
Defined.



(* ===================================================================== *)
(** ** Session identifiers on the file system *)
(* ===================================================================== *)

Lemma longer_trace_differs ev w w' :
  w_trace w' = (w_trace w ++ [ev])%list -> w' <> w.
Proof.
  intros Ht ->. apply (f_equal length) in Ht. rewrite length_app in Ht.
  simpl in Ht. lia.
Qed.

(** C2, as the services behave.  A session identifier is not checked
    against any token shape before it is joined into a path.  [askQuestion]
    refuses an empty identifier as missing input and, for any other one,
    fails with "Session Folder Not Found" exactly when
    [path.join("uploads", id)] does not exist: the shape of the identifier
    plays no part.  [scan] makes no check at all: for every identifier it
    creates [path.join("uploads", id)] when that is missing and hands the
    identifier to the scanner process. *)
Theorem session_id_not_validated
    (backend : Backend)
    (scanner : Scanner)
    (sessionId : string) (w : World) :
  (forall question,
     truthy sessionId = true -> truthy question = true ->
     (askQuestion backend sessionId question w
      = (Throw (AppError "Session Folder Not Found" 404), w)
      <-> Fs.node_at w (Path.join "uploads" sessionId) = None))
  /\ (forall filePath w1 error w2,
        ensured (Path.join "uploads" sessionId) w w1 ->
        execFile scanner pythonPath (scanner_args sessionId filePath w1) w1
        = (Ret error, w2) ->
        Fs.node_at w1 (Path.join "uploads" sessionId) <> None
        /\ In sessionId (scanner_args sessionId filePath w1)
        /\ scan scanner sessionId filePath w
           = scan_callback (Path.join "uploads" sessionId)
               (Path.resolve (w_cwd w) filePath) error w2).
Proof.
  split.
  - intros question Hs Hq. fold (session_root sessionId). split.
    + intros Hask.
      destruct (Fs.node_at w (session_root sessionId)) eqn:Hroot; [| done].
      rewrite ask_run in Hask by (done || congruence). exfalso.
      destruct (loaded_log _) as [prior|e|e] eqn:Hload.
      * cbv zeta in Hask.
        destruct (ask_reply _) as [reply|e|e];
          [destruct (Fs.check_target _ _) |..];
          injection Hask as _ Hw;
          by apply (longer_trace_differs (EvPost "/api/ask" sessionId question))
            in Hw.
      * injection Hask as ->. revert Hload.
        by destruct (Fs.node_at w (chat_file sessionId)) as [[|[t|j]]|].
      * revert Hload.
        by destruct (Fs.node_at w (chat_file sessionId)) as [[|[t|j]]|].
    + intros Hroot. rewrite ask_no_root by done. by rewrite Hs, Hq.
  - intros filePath w1 error w2 Hens Hexec. split; [| split].
    + revert Hens. unfold ensured.
      destruct (Fs.node_at w (Path.join "uploads" sessionId)) eqn:Hroot.
      * intros ->. by rewrite Hroot.
      * intros (fs1 & Hmk & ->). unfold Fs.node_at. simpl.
        by rewrite (mkdirs_prefixes _ _ _ Hmk).
    + unfold scanner_args. simpl. auto.
    + by eapply scan_run.
Qed.

Lemma session_id_not_validated_witness :
  askQuestion Sample.backend_up "../../etc" "what is this about?" Sample.w0
  = (Throw (AppError "Session Folder Not Found" 404), Sample.w0).
Proof.
  apply (proj1 (session_id_not_validated Sample.backend_up (Sample.scanner 0)
                  "../../etc" Sample.w0)
           "what is this about?" eq_refl eq_refl).
  reflexivity.
Defined.

(** C2, counterexample to the claim as stated: the identifier
    ["../outside"] has a path-traversal segment; the ask is not rejected,
    the identifier is joined to the path ["outside"], next to ["uploads"],
    and the conversation log is written there. *)
Lemma ask_traversal_reaches_fs :
  let q := "what is this about?" in
  let turns := [user_turn q; assistant_turn (Some (JStr "It is about cats.")) (JArr [])] in
  let r := askQuestion Sample.backend_up "../outside" q Sample.w0 in
  r.1 = Ret turns
  /\ Path.join "uploads" "../outside" = "outside"
  /\ w_fs Sample.w0 !! ["srv"; "app"; "outside"; "chat.json"] = None
  /\ w_fs r.2 !! ["srv"; "app"; "outside"; "chat.json"]
     = Some (File (JsonText (JArr turns))).
Proof. vm_compute. repeat split. Qed.

Lemma ask_failure_persists_nothing_witness :
  let q := "what is this about?" in
  w_fs (askQuestion Sample.backend_down "s1" q Sample.w0).2 = w_fs Sample.w0.
Proof.
  intros q.
  apply (proj1 (ask_failure_persists_nothing Sample.backend_down "s1" q Sample.w0)
           (mkError "connect ECONNREFUSED 127.0.0.1:8000" (Some "ECONNREFUSED")
              None None)).
  reflexivity.
Defined.


(* ===================================================================== *)
(** ** Further properties of the services *)
(* ===================================================================== *)

Section MoreRuns.

Variable scanner : Scanner.
Variable backend : Backend.

(** What [summarize] leaves behind when it returns. *)
Lemma summarize_ret sessionId filePath w text w' :
  summarize backend sessionId filePath w = (Ret text, w') ->
  Fs.node_at w' (summary_file sessionId) = Some (File (Text text))
  /\ w_trace w'
     = (w_trace w ++ [EvPost "/api/summarize" sessionId filePath])%list
  /\ w_cwd w' = w_cwd w.
Proof.
  unfold summarize.
  destruct (negb (truthy sessionId) || negb (truthy filePath)); [by intros [=] |].
  unfold mbind, M_bind, bind, Fs.existsSync, Fs.isDirectory.
  destruct (Fs.node_at w filePath) as [[|c]|] eqn:Hfile; simpl; rewrite ?Hfile;
    try (by intros [=]).
  fold (session_root sessionId).
  destruct (ensure_folder (session_root sessionId) w) as [out1 w1] eqn:He.
  apply ensure_folder_inv in He as [[-> He] | [-> ->]]; [| by intros [=]].
  destruct (ensured_frame _ _ _ He) as (Hcwd & Htrace & _).
  rewrite summarize_exchange_run. cbv zeta.
  destruct (backend _ _ _ _) as [data|e]; [| by intros [=]].
  destruct (summary_of data) as [text'|]; [| by intros [=]].
  fold (summary_file sessionId).
  destruct (Fs.check_target _ _) eqn:Hok; [by intros [=] |].
  intros [= <- <-]. simpl. rewrite Htrace, Hcwd. split; [| done].
  unfold Fs.node_at. simpl. rewrite Hcwd in Hok |- *.
  destruct (Path.segments (w_cwd w) (summary_file sessionId)); [done |].
  simpl. by rewrite lookup_insert_eq.
Qed.

(** What [askQuestion] leaves behind when it returns. *)
Lemma ask_ret sessionId question w turns w' :
  askQuestion backend sessionId question w = (Ret turns, w') ->
  persisted_log sessionId w' = turns
  /\ (exists answer sources,
        turns = (persisted_log sessionId w
                 ++ [user_turn question; assistant_turn answer sources])%list)
  /\ w_trace w' = (w_trace w ++ [EvPost "/api/ask" sessionId question])%list
  /\ w_cwd w' = w_cwd w.
Proof.
  destruct (truthy sessionId && truthy question) eqn:Hin;
    [apply andb_true_iff in Hin as [Hs Hq] |].
  2: { unfold askQuestion.
       assert (negb (truthy sessionId) || negb (truthy question) = true) as ->
         by (apply andb_false_iff in Hin as [-> | ->]; simpl; auto using orb_true_r).
       by intros [=]. }
  destruct (Fs.node_at w (session_root sessionId)) eqn:Hroot.
  2: { rewrite ask_no_root by done. by intros [=]. }
  rewrite ask_run by (done || congruence).
  destruct (loaded_log _) as [prior| |] eqn:Hload; [| by intros [=] ..].
  apply loaded_persisted in Hload as <-. cbv zeta.
  destruct (ask_reply _) as [reply| |]; [| by intros [=] ..].
  destruct (Fs.check_target _ _) eqn:Hok; [by intros [=] |].
  intros [= <- <-]. rewrite persisted_after_write by done.
  split; [done |]. split; [by exists reply.1, reply.2 | done].
Qed.

End MoreRuns.

(* --------------------------------------------------------------------- *)
(** *** Intake *)

(** X1.  An intake request is refused before anything is stored when its
    file part is not declared as a PDF, and when it has no file part at all:
    the answer is a 400 error forwarded to [next], the file system is
    untouched (not even the session folder is created) and the only
    interaction is the generation of the identifier. *)
Theorem intake_refused_before_storing
    (scanner : Scanner)
    (backend : Backend)
    (source : list Event -> string)
    (loose_eq : option json -> Z -> bool)
    (req : Request) (w : World) :
  let route := uploadRouter_post scanner backend source loose_eq in
  let generated := log_event (EvUuid (source (w_trace w))) w in
  (forall part,
     req_part req = Some part ->
     includes allowedExtensions_pdf (p_mimetype part) = false ->
     route req w
     = (Ret (Next (AppError "Invalid file type, only pdfs allowed" 400)), generated))
  /\ (req_part req = None -> req_file req = None ->
      route req w
      = (Ret (Next (AppError "Upload failed: missing sessionId or file" 400)),
         generated)).
Proof.
  cbv zeta. split.
  - intros part Hpart Hmime. rewrite route_run. cbv zeta.
    unfold MulterLocal_single. simpl. rewrite Hpart.
    unfold fileFilter. rewrite Hmime. reflexivity.
  - intros Hpart Hfile. rewrite route_run. cbv zeta.
    unfold MulterLocal_single. simpl. rewrite Hpart. simpl.
    unfold upload, try_catch. simpl. rewrite Hfile. reflexivity.
Qed.

Lemma intake_refused_before_storing_witness :
  let req := mkRequest [] []
               (Some (mkPart "notes.txt" "text/plain" (Text "hello"))) None None in
  uploadRouter_post (Sample.scanner 1) Sample.backend_up Sample.uuids
    Sample.loose_eq_numbers req Sample.w0
  = (Ret (Next (AppError "Invalid file type, only pdfs allowed" 400)),
     log_event (EvUuid "id-") Sample.w0).
Proof.
  intros req.
  apply (proj1 (intake_refused_before_storing (Sample.scanner 1) Sample.backend_up
                  Sample.uuids Sample.loose_eq_numbers req Sample.w0)
           (mkPart "notes.txt" "text/plain" (Text "hello")));
    reflexivity.
Defined.

(** What a 200 answer of [upload] says about the run. *)
Lemma upload_200_run
    (scanner : Scanner)
    (backend : Backend)
    (loose_eq : option json -> Z -> bool)
    (req : Request) (w : World) (body : json) (w' : World) :
  upload scanner backend loose_eq req w = (Ret (Sent 200 body), w') ->
  exists sessionId file report text w1,
    req_sessionId req = Some sessionId /\ req_file req = Some file
    /\ scan scanner sessionId (f_path file) w = (Ret report, w1)
    /\ summarize backend sessionId (f_path file) w1 = (Ret text, w')
    /\ body = JObj [("status", JStr "success"); ("sessionId", JStr sessionId);
                    ("report", report); ("summarization", JStr text)].
Proof.
  unfold upload, try_catch, mbind, M_bind, bind.
  destruct (req_sessionId req) as [sessionId|] eqn:Hid; [| by intros [=]].
  destruct (req_file req) as [file|] eqn:Hfile; [| by intros [=]].
  destruct (truthy sessionId && truthy (f_path file)); [| by intros [=]].
  destruct (scan _ _ _ _) as [[report|e|e] w1] eqn:Hscan; [| by intros [=] ..].
  destruct (prop report "risk_level" w1) as [[level|e|e] w2] eqn:Hprop;
    [| by intros [=] ..].
  assert (w2 = w1) as -> by (destruct report; by inversion Hprop).
  destruct (loose_eq level 3); [by intros [=] |].
  destruct (summarize _ _ _ _) as [[text|e|e] w3] eqn:Hsum; [| by intros [=] ..].
  intros [= <- <-]. by exists sessionId, file, report, text, w1.
Qed.

(** X2.  Whenever [upload] answers 200, the summary it returns is the
    content of [summary.txt] under the session folder, and the interactions
    of the request are, in this order, one launch of the scanner and one
    call to the summarize endpoint: the scan is over before the summarizer
    is called. *)
Theorem upload_200_summary_persisted
    (scanner : Scanner)
    (backend : Backend)
    (loose_eq : option json -> Z -> bool)
    (req : Request) (w w' : World) (body : json)
    (Hok : upload scanner backend loose_eq req w = (Ret (Sent 200 body), w')) :
  exists sessionId file text,
    req_sessionId req = Some sessionId /\ req_file req = Some file
    /\ member "summarization" body = Some (JStr text)
    /\ Fs.node_at w' (summary_file sessionId) = Some (File (Text text))
    /\ w_trace w'
       = (w_trace w
          ++ [EvExec pythonPath (scanner_args sessionId (f_path file) w);
              EvPost "/api/summarize" sessionId (f_path file)])%list.
Proof.
  apply upload_200_run in Hok
    as (sessionId & file & report & text & w1 & Hid & Hfile & Hscan & Hsum & ->).
  exists sessionId, file, text.
  apply scan_trace in Hscan as [Ht1 _].
  apply summarize_ret in Hsum as (Hnode & Ht2 & _).
  repeat split; try done. by rewrite Ht2, Ht1, <- app_assoc.
Qed.

Lemma upload_200_summary_persisted_witness :
  let req := mkRequest [] [] None (Some "s1")
               (Some (mkFile "doc.pdf" "application/pdf" "uploads/s1/doc.pdf")) in
  exists text,
    Fs.node_at (upload (Sample.scanner 1) Sample.backend_up Sample.loose_eq_numbers
                  req Sample.w0).2 (summary_file "s1")
    = Some (File (Text text)).
Proof.
  intros req.
  destruct (upload_200_summary_persisted (Sample.scanner 1) Sample.backend_up
              Sample.loose_eq_numbers req Sample.w0
              (upload (Sample.scanner 1) Sample.backend_up Sample.loose_eq_numbers
                 req Sample.w0).2
              (JObj [("status", JStr "success"); ("sessionId", JStr "s1");
                     ("report", Sample.report 1);
                     ("summarization", JStr "A text about cats.")]))
    as (sid & file & text & Hid & _ & _ & Hnode & _).
  - vm_compute. reflexivity.
  - injection Hid as <-. by exists text.
Defined.



(* --------------------------------------------------------------------- *)
(** *** The scan handler *)



(** X5.  A report that is there but cannot be read as JSON (it is not JSON,
    or it is a directory) makes the callback of [execFile] throw: the
    promise of [scan] is neither resolved nor rejected.  Such an uncaught
    exception passes through the [catch] of [upload] and of [scanFile], so
    that neither handler answers. *)
Theorem scan_unreadable_report_uncaught
    (scanner : Scanner)
    (sessionId filePath : string) (w w1 w2 : World)
    (Hensured : ensured (session_root sessionId) w w1)
    (Hexec : execFile scanner pythonPath (scanner_args sessionId filePath w1) w1
             = (Ret None, w2)) :
  let reportFile := Path.resolve (w_cwd w) filePath ++ ".report.json" in
  (forall text,
     Fs.node_at w2 reportFile = Some (File (Text text)) ->
     scan scanner sessionId filePath w
     = (Crash (RuntimeError "SyntaxError: Unexpected token"), w2))
  /\ (Fs.node_at w2 reportFile = Some Dir ->
      scan scanner sessionId filePath w = (Crash (SystemError "EISDIR"), w2))
  /\ (forall e w' backend loose_eq req file,
        scan scanner sessionId filePath w = (Crash e, w') ->
        req_sessionId req = Some sessionId -> req_file req = Some file ->
        f_path file = filePath ->
        truthy sessionId = true -> truthy filePath = true ->
        upload scanner backend loose_eq req w = (Crash e, w'))
  /\ (forall e w' req,
        scan scanner sessionId filePath w = (Crash e, w') ->
        field "sessionId" (req_body req) = Some sessionId ->
        field "filePath" (req_body req) = Some filePath ->
        scanFile scanner req w = (Crash e, w')).
Proof.
  intros reportFile.
  rewrite (scan_run scanner _ _ _ _ _ _ Hensured Hexec).
  unfold scan_callback, in_callback, mbind, M_bind, bind, Fs.existsSync,
    Fs.readFileSync.
  fold reportFile. split; [| split; [| split]].
  - intros text Hnode. rewrite Hnode. cbn. by rewrite Hnode.
  - intros Hnode. rewrite Hnode. cbn. by rewrite Hnode.
  - intros e w' backend loose_eq req file Hscan Hid Hfile Hpath Hs Hf.
    unfold upload, try_catch. rewrite Hid, Hfile, Hpath, Hs, Hf. cbn.
    unfold mbind, M_bind, bind.
    rewrite (scan_run scanner _ _ _ _ _ _ Hensured Hexec).
    unfold scan_callback, in_callback, mbind, M_bind, bind, Fs.existsSync,
      Fs.readFileSync.
    fold reportFile. by rewrite Hscan.
  - intros e w' req Hscan Hid Hf.
    unfold scanFile, try_catch. rewrite Hid, Hf.
    unfold mbind, M_bind, bind.
    rewrite (scan_run scanner _ _ _ _ _ _ Hensured Hexec).
    unfold scan_callback, in_callback, mbind, M_bind, bind, Fs.existsSync,
      Fs.readFileSync.
    fold reportFile. by rewrite Hscan.
Qed.

(* --------------------------------------------------------------------- *)
(** *** Conversation *)

Section MoreAsk.

Variable backend : Backend.

(** The log file after an ask that returned. *)
Lemma ask_ret_file sessionId question w turns w' :
  askQuestion backend sessionId question w = (Ret turns, w') ->
  Fs.node_at w' (chat_file sessionId) = Some (File (JsonText (JArr turns))).
Proof.
  destruct (truthy sessionId && truthy question) eqn:Hin;
    [apply andb_true_iff in Hin as [Hs Hq] |].
  2: { unfold askQuestion.
       assert (negb (truthy sessionId) || negb (truthy question) = true) as ->
         by (apply andb_false_iff in Hin as [-> | ->]; simpl; auto using orb_true_r).
       by intros [=]. }
  destruct (Fs.node_at w (session_root sessionId)) eqn:Hroot.
  2: { rewrite ask_no_root by done. by intros [=]. }
  rewrite ask_run by (done || congruence).
  destruct (loaded_log _) as [prior| |]; [| by intros [=] ..]. cbv zeta.
  destruct (ask_reply _) as [reply| |]; [| by intros [=] ..].
  destruct (Fs.check_target _ _) eqn:Hok; [by intros [=] |].
  intros [= <- <-]. unfold Fs.node_at. cbn [w_fs w_cwd set_fs log_event].
  destruct (Path.segments (w_cwd w) (chat_file sessionId)); [done |].
  cbn [Fs.lookup_node]. by rewrite lookup_insert_eq.
Qed.

End MoreAsk.

(** X6.  A conversation log that cannot be read stops an ask before the
    backend is called: when [chat.json] does not hold JSON, or is a
    directory, [askQuestion] throws the error of [JSON.parse] or of the read
    (no [AppError], hence status 500) and leaves the world as it was.  A log
    that holds JSON other than an array is taken as empty: a successful ask
    returns two turns and replaces the old content with them. *)
Theorem ask_damaged_log
    (backend : Backend)
    (sessionId question : string) (w : World)
    (Hs : truthy sessionId = true) (Hq : truthy question = true)
    (Hroot : Fs.node_at w (session_root sessionId) <> None) :
  (forall text,
     Fs.node_at w (chat_file sessionId) = Some (File (Text text)) ->
     askQuestion backend sessionId question w
     = (Throw (RuntimeError "SyntaxError: Unexpected token"), w)
     /\ http_status (Next (RuntimeError "SyntaxError: Unexpected token")) = 500)
  /\ (Fs.node_at w (chat_file sessionId) = Some Dir ->
      askQuestion backend sessionId question w = (Throw (SystemError "EISDIR"), w))
  /\ (forall raw answer,
        Fs.node_at w (chat_file sessionId) = Some (File (JsonText raw)) ->
        (forall items, raw <> JArr items) ->
        backend (w_trace w) "/api/ask" sessionId question = AxOk (JStr answer) ->
        Fs.check_target (w_fs w) (Path.segments (w_cwd w) (chat_file sessionId))
        = None ->
        let turns := [user_turn question;
                      assistant_turn (Some (JStr answer)) (JArr [])] in
        (askQuestion backend sessionId question w).1 = Ret turns
        /\ Fs.node_at (askQuestion backend sessionId question w).2
             (chat_file sessionId)
           = Some (File (JsonText (JArr turns)))).
Proof.
  split; [| split].
  - intros text Hnode. rewrite ask_run by done. by rewrite Hnode.
  - intros Hnode. rewrite ask_run by done. by rewrite Hnode.
  - intros raw answer Hnode Hraw Hb Hok turns.
    destruct (askQuestion backend sessionId question w) as [out w'] eqn:Hask.
    pose proof Hask as Hrun. rewrite ask_run in Hrun by done.
    cbv zeta in Hrun. rewrite Hnode, Hb, Hok in Hrun. cbn in Hrun.
    assert (as_array raw = []) as Hempty
      by (destruct raw as [| | | |items|]; try done; by destruct (Hraw items)).
    rewrite Hempty in Hrun. injection Hrun as <- <-.
    split; [done |]. cbn [snd]. eapply ask_ret_file. exact Hask.
Qed.


(** X7.  Asks compose.  After an ask has returned its turns, reloading the
    log gives back exactly those turns, and a second ask that returns gives
    them followed by its own user and assistant turns; that list is again
    what is persisted. *)
Theorem ask_twice
    (backend1 backend2 : Backend)
    (sessionId question1 question2 : string) (w w1 w2 : World)
    (turns1 turns2 : list json)
    (Hfirst : askQuestion backend1 sessionId question1 w = (Ret turns1, w1))
    (Hsecond : askQuestion backend2 sessionId question2 w1 = (Ret turns2, w2)) :
  load_messages (chat_file sessionId) w1 = (Ret turns1, w1)
  /\ (exists answer sources,
        turns2 = (turns1 ++ [user_turn question2;
                             assistant_turn answer sources])%list)
  /\ persisted_log sessionId w2 = turns2
  /\ length turns2 = (length (persisted_log sessionId w) + 4)%nat.
Proof.
  pose proof (ask_ret_file _ _ _ _ _ _ Hfirst) as Hfile.
  apply ask_ret in Hfirst as (Hp1 & (a1 & s1 & Ht1) & _).
  apply ask_ret in Hsecond as (Hp2 & (a2 & s2 & Ht2) & _).
  split; [| split; [| split]].
  - rewrite load_messages_run. by rewrite Hfile.
  - exists a2, s2. by rewrite Ht2, Hp1.
  - done.
  - rewrite Ht2, Hp1, Ht1, !length_app. cbn [length]. lia.
Qed.

(* --------------------------------------------------------------------- *)
(** *** The summarize handler *)



(* --------------------------------------------------------------------- *)
(** *** What the services leave alone *)

(** X9.  An ask changes at most one entry of the file system, the
    session's [chat.json]: every other file and folder, the uploaded
    document, the report and the summary among them, is what it was,
    whether the ask returns or fails. *)
Theorem ask_touches_only_log
    (backend : Backend)
    (sessionId question : string) (w : World) (k : list string)
    (Hother : k <> Path.segments (w_cwd w) (chat_file sessionId)) :
  w_fs (askQuestion backend sessionId question w).2 !! k = w_fs w !! k.
Proof.
  destruct (truthy sessionId && truthy question) eqn:Hin;
    [apply andb_true_iff in Hin as [Hs Hq] |].
  2: { unfold askQuestion.
       assert (negb (truthy sessionId) || negb (truthy question) = true) as ->
         by (apply andb_false_iff in Hin as [-> | ->]; simpl; auto using orb_true_r).
       done. }
  destruct (Fs.node_at w (session_root sessionId)) eqn:Hroot.
  2: { by rewrite ask_no_root. }
  rewrite ask_run by (done || congruence).
  destruct (loaded_log _) as [prior| |]; [| done ..]. cbv zeta.
  destruct (ask_reply _) as [reply| |]; [| done ..].
  destruct (Fs.check_target _ _); [done |].
  cbn [snd w_fs set_fs]. by rewrite lookup_insert_ne.
Qed.

(* --------------------------------------------------------------------- *)
(** *** The properties above on the sample worlds *)

Lemma scan_unreadable_report_uncaught_witness :
  let w2 := (execFile Sample2.scanner_garbled pythonPath
               (scanner_args "s1" "uploads/s1/doc.pdf" Sample.w0) Sample.w0).2 in
  scan Sample2.scanner_garbled "s1" "uploads/s1/doc.pdf" Sample.w0
  = (Crash (RuntimeError "SyntaxError: Unexpected token"), w2).
Proof.
  intros w2.
  exact (proj1 (scan_unreadable_report_uncaught Sample2.scanner_garbled "s1"
                  "uploads/s1/doc.pdf" Sample.w0 Sample.w0 w2 eq_refl eq_refl)
           "Traceback" eq_refl).
Defined.

Lemma ask_damaged_log_witness :
  askQuestion Sample.backend_up "s1" "what is this about?" Sample2.w_text_log
  = (Throw (RuntimeError "SyntaxError: Unexpected token"), Sample2.w_text_log).
Proof.
  assert (Fs.node_at Sample2.w_text_log (session_root "s1") <> None) as Hroot
    by discriminate.
  exact (proj1 (proj1 (ask_damaged_log Sample.backend_up "s1" "what is this about?"
                         Sample2.w_text_log eq_refl eq_refl Hroot)
                  "%PDF-1.7" eq_refl)).
Defined.

Lemma ask_twice_witness :
  let turns1 := [user_turn "what is this about?";
                 assistant_turn (Some (JStr "It is about cats.")) (JArr [])] in
  let turns2 := (turns1 ++ [user_turn "who wrote it?";
                            assistant_turn (Some (JStr "It is about cats."))
                              (JArr [])])%list in
  let w1 := (askQuestion Sample.backend_up "s1" "what is this about?" Sample.w0).2 in
  let w2 := (askQuestion Sample.backend_up "s1" "who wrote it?" w1).2 in
  persisted_log "s1" w2 = turns2.
Proof.
  intros turns1 turns2 w1 w2.
  exact (proj1 (proj2 (proj2
           (ask_twice Sample.backend_up Sample.backend_up "s1"
              "what is this about?" "who wrote it?" Sample.w0 w1 w2 turns1 turns2
              eq_refl eq_refl)))).
Defined.


Lemma ask_touches_only_log_witness :
  w_fs (askQuestion Sample.backend_up "s1" "what is this about?" Sample.w0).2
    !! ["srv"; "app"; "uploads"; "s1"; "doc.pdf"]
  = Some (File (Text "%PDF-1.7")).
Proof.
  assert (["srv"; "app"; "uploads"; "s1"; "doc.pdf"]
          <> Path.segments (w_cwd Sample.w0) (chat_file "s1")) as Hother
    by discriminate.
  exact (ask_touches_only_log Sample.backend_up "s1" "what is this about?"
           Sample.w0 _ Hother).
Defined.
